(** * UMKM prediction backend: the handlers of [main.py]

    A shallow embedding of [predict] (main.py, lines 85-125) and of the
    [Prediction] schema it persists (schemas.py, lines 29-37), followed
    by the properties of the simple and exponential moving averages, of
    the two request errors and of the best-effort persistence step; then
    of the sales and profile endpoints and of the database check.

    Numbers.  The handler only adds, subtracts, multiplies, divides and
    compares numbers; it never inspects their representation.  The
    embedding is therefore written over an interface [PyFloat] of those
    operations, and every general theorem holds for any implementation of
    it.  Two implementations are given: [binary64], the IEEE-754 doubles
    CPython computes with (Rocq's primitive floats), and [rational], the
    exact arithmetic in which the specification reads its formulas.

    Effects.  [predict] raises, catches, and calls [create_document] of
    the [database] module.  That collaborator is a parameter of the
    embedding: a function on an abstract store that returns an identifier
    or raises.  Python code is written in the monad [Py] of computations
    over that store that may raise. *)

From Stdlib Require Import ZArith List String Ascii Bool Lia Floats QArith.
From Stdlib Require Import DecimalString.
Import ListNotations.

Set Implicit Arguments.

Local Open Scope string_scope.
Local Open Scope Z_scope.

(** ** Python values *)

(** The exceptions that can appear while [predict] runs.  All of them are
    subclasses of Python's [Exception], so [except Exception] catches each. *)
Inductive PyExc : Type :=
| HTTPException (status_code : Z) (detail : string)
| ZeroDivisionError
| IndexError
| ValidationError (fields : list string)
| OtherException (message : string).

(** The arithmetic [predict] uses on [float] values. *)
Class PyFloat (F : Type) : Type := {
  (** [float(n)] for an int [n] *)
  float_of_int : Z -> F;
  float_add : F -> F -> F;
  float_sub : F -> F -> F;
  float_mul : F -> F -> F;
  (** [x / y] on floats, for [y] other than zero *)
  float_truediv : F -> F -> F;
  (** [a / b] on ints, for [b] other than zero *)
  int_truediv : Z -> Z -> F;
  (** [x >= y] *)
  float_ge : F -> F -> bool
}.

Declare Scope py_scope.
Delimit Scope py_scope with py.
Notation "x + y" := (float_add x y) : py_scope.
Notation "x - y" := (float_sub x y) : py_scope.
Notation "x * y" := (float_mul x y) : py_scope.

(** *** IEEE-754 binary64, as CPython's [float] *)

Definition Z2SF (z : Z) : spec_float :=
  match z with
  | Z0 => S754_zero false
  | Zpos p => S754_finite false p 0
  | Zneg p => S754_finite true p 0
  end.

(** Both conversions round to nearest, ties to even, as CPython does. *)
Definition b64_of_int (z : Z) : float :=
  SF2Prim (binary_normalize prec emax z 0 false).

Definition b64_int_truediv (a b : Z) : float :=
  SF2Prim (SFdiv prec emax (Z2SF a) (Z2SF b)).

#[export] Instance binary64 : PyFloat float := {
  float_of_int := b64_of_int;
  float_add := PrimFloat.add;
  float_sub := PrimFloat.sub;
  float_mul := PrimFloat.mul;
  float_truediv := PrimFloat.div;
  int_truediv := b64_int_truediv;
  float_ge := fun x y => PrimFloat.leb y x
}.

(** *** Exact rational arithmetic *)

Definition rational : PyFloat Q := {|
  float_of_int := inject_Z;
  float_add := Qplus;
  float_sub := Qminus;
  float_mul := Qmult;
  float_truediv := Qdiv;
  int_truediv := fun a b => Qdiv (inject_Z a) (inject_Z b);
  float_ge := fun x y => Qle_bool y x
|}.

(** *** Strings: [str.lower] *)

(** Strings are byte strings (UTF-8).  [str.lower] maps [A]..[Z] to
    [a]..[z]; on other characters it never produces one of the letters of
    [sma] or [ema], so leaving them unchanged does not alter any comparison
    [predict] makes. *)
Definition lower_ascii (c : ascii) : ascii :=
  let n := nat_of_ascii c in
  if ((65 <=? n) && (n <=? 90))%nat then ascii_of_nat (n + 32) else c.

Fixpoint lower (s : string) : string :=
  match s with
  | EmptyString => EmptyString
  | String c s' => String (lower_ascii c) (lower s')
  end.

(** *** Lists: [len], slices, indexing *)

Definition len {A : Type} (l : list A) : Z := Z.of_nat (List.length l).

(** [l[start:]]: a negative [start] counts from the end, and both ends are
    clipped to the list. *)
Definition slice_from {A : Type} (start : Z) (l : list A) : list A :=
  let i := if start <? 0 then Z.max (start + len l) 0 else Z.min start (len l) in
  skipn (Z.to_nat i) l.

(** ** The schema and the request (schemas.py, main.py) *)

Section Model.

Context {F : Type} {PF : PyFloat F}.

(** [class PredictRequest(BaseModel)].  An entry of [series] may be absent:
    the handler filters them with [x is not None]. *)
Record PredictRequest : Type := {
  series : list (option F);
  method : string;
  window : Z;
  alpha : option F
}.

(** [class Prediction(BaseModel)], schemas.py. *)
Record Prediction : Type := {
  pred_method : string;
  pred_window : Z;
  input_points : list F;
  predicted_value : F
}.

(** The names of the fields of [Prediction] whose [Field] constraints
    reject the given values: [window] has [ge=1, le=90] and
    [predicted_value] has [ge=0]. *)
Definition Prediction_errors (w : Z) (pv : F) : list string :=
  (if (1 <=? w) && (w <=? 90) then [] else ["window"]) ++
  (if float_ge pv (float_of_int 0) then [] else ["predicted_value"]).

Variables DB Id : Type.

(** [{"predicted": ..., "method": ..., "window": ..., "saved_id": ...}] *)
Record Response : Type := {
  predicted : F;
  resp_method : string;
  resp_window : Z;
  saved_id : option Id
}.

(** ** Python computations *)

Definition Py (A : Type) : Type := DB -> (PyExc + A) * DB.

Definition ret {A : Type} (a : A) : Py A := fun db => (inr a, db).

Definition raise {A : Type} (e : PyExc) : Py A := fun db => (inl e, db).

Definition bind {A B : Type} (m : Py A) (k : A -> Py B) : Py B :=
  fun db =>
    match m db with
    | (inl e, db') => (inl e, db')
    | (inr a, db') => k a db'
    end.

(** [try: body / except Exception: handler] *)
Definition try_except {A : Type} (body : Py A) (handler : PyExc -> Py A) : Py A :=
  fun db =>
    match body db with
    | (inl e, db') => handler e db'
    | (inr a, db') => (inr a, db')
    end.

Notation "x <- m ;; k" := (bind m (fun x => k))
  (at level 61, m at next level, right associativity).

(** [Prediction(method=..., window=..., input_points=..., predicted_value=...)] *)
Definition Prediction_init (m : string) (w : Z) (pts : list F) (pv : F) : Py Prediction :=
  match Prediction_errors w pv with
  | [] => ret {| pred_method := m; pred_window := w;
                 input_points := pts; predicted_value := pv |}
  | errs => raise (ValidationError errs)
  end.

(** [sum(l)]: the items added left to right, starting from the int [0].
    (CPython 3.12 and later add floats with a compensated sum, which can
    round the last bit differently; the left-to-right sum is kept here.) *)
Definition sum (l : list F) : F :=
  fold_left float_add l (float_of_int 0).

(** [x / n] for a float [x] and an int [n]. *)
Definition truediv_float_int (x : F) (n : Z) : Py F :=
  if n =? 0 then raise ZeroDivisionError
  else ret (float_truediv x (float_of_int n)).

(** [a / b] for two ints. *)
Definition truediv_int_int (a b : Z) : Py F :=
  if b =? 0 then raise ZeroDivisionError else ret (int_truediv a b).

(** [l[0]] *)
Definition getitem0 (l : list F) : Py F :=
  match l with
  | [] => raise IndexError
  | x :: _ => ret x
  end.

(** [[x for x in series if x is not None]] *)
Fixpoint clean (s : list (option F)) : list F :=
  match s with
  | [] => []
  | Some x :: s' => x :: clean s'
  | None :: s' => clean s'
  end.

(** The body of [for v in vs: ema = alpha * v + (1 - alpha) * ema], and the
    value of [ema] when the loop ends. *)
Definition ema_step (a ema v : F) : F :=
  (a * v + (float_of_int 1 - a) * ema)%py.

Fixpoint ema_loop (a ema : F) (vs : list F) : F :=
  match vs with
  | [] => ema
  | v :: vs' => ema_loop a (ema_step a ema v) vs'
  end.

Definition too_short : PyExc :=
  HTTPException 400 "Series minimal 2 angka".

Definition unknown_method : PyExc :=
  HTTPException 400 "Method tidak dikenal. Pakai 'sma' atau 'ema'".

(** ** The handler: [predict], main.py lines 85-125 *)

Definition predict
    (create_document : string -> Prediction -> Py Id)
    (req : PredictRequest) : Py Response :=
  let data := clean (series req) in
  if (List.length data <? 2)%nat then raise too_short else
  let method := lower (method req) in
  pred_value <-
    (if (method =? "sma")%string then
       let w := Z.max 1 (Z.min (window req) (len data)) in
       let window_vals := slice_from (- w) data in
       truediv_float_int (sum window_vals) (len window_vals)
     else if (method =? "ema")%string then
       alpha <- match alpha req with
                | Some a => ret a
                | None => truediv_int_int 2 (window req + 1)
                end ;;
       ema <- getitem0 data ;;
       ret (ema_loop alpha ema (slice_from 1 data))
     else raise unknown_method) ;;
  inserted_id <-
    try_except
      (pred_doc <- Prediction_init method (window req) data pred_value ;;
       new_id <- create_document "prediction" pred_doc ;;
       ret (Some new_id))
      (fun _ => ret None) ;;
  ret {| predicted := pred_value;
         resp_method := method;
         resp_window := window req;
         saved_id := inserted_id |}.

End Model.

(** ** Notions the properties are stated with *)

Section Notions.

Context {F : Type} {PF : PyFloat F}.

(** The trailing [k] elements of [l], that is [l[len(l)-k:]]. *)
Definition trailing (k : nat) (l : list F) : list F :=
  skipn (List.length l - k) l.

(** The arithmetic mean of a list. *)
Definition mean (l : list F) : F :=
  float_truediv (fold_left float_add l (float_of_int 0)) (float_of_int (len l)).

(** The exponential recurrence: start at [x0], then
    [estimate = a*v + (1-a)*estimate] for each further value, in order. *)
Definition ema_fold (a x0 : F) (rest : list F) : F :=
  fold_left (fun estimate v => (a * v + (float_of_int 1 - a) * estimate)%py) rest x0.

(** Adding [x] to the int [0] and dividing by the int [1] gives [x] back.
    True of every number in exact arithmetic, and of every double other
    than the negative zero. *)
Definition unit_exact (x : F) : Prop :=
  float_truediv (float_add (float_of_int 0) x) (float_of_int 1) = x.

(** The number a run of the handler answers with, or the exception it
    raises. *)
Definition forecast {DB Id : Type}
    (create_document : string -> Prediction -> Py DB Id)
    (req : PredictRequest) (db : DB) : PyExc + F :=
  match fst (predict create_document req db) with
  | inl e => inl e
  | inr resp => inr (predicted resp)
  end.

(** The part of [predict] below [# Save prediction to DB]. *)
Definition save_and_respond {DB Id : Type}
    (create_document : string -> Prediction -> Py DB Id)
    (m : string) (w : Z) (data : list F) (pv : F) : Py DB (Response Id) :=
  bind
    (try_except
       (bind (Prediction_init m w data pv) (fun pred_doc =>
        bind (create_document "prediction" pred_doc) (fun new_id =>
        ret (Some new_id))))
       (fun _ => ret None))
    (fun inserted_id =>
       ret {| predicted := pv; resp_method := m;
              resp_window := w; saved_id := inserted_id |}).

(** Two stand-ins for the persistence collaborator: a store that keeps
    every document it is given and numbers them, and one that is down. *)
Definition recording_store : Type := list (string * @Prediction F).

Definition recording_create (c : string) (d : @Prediction F) : Py recording_store nat :=
  fun db => (inr (List.length db), (db ++ [(c, d)])%list).

Definition unavailable_create (c : string) (d : @Prediction F) : Py unit nat :=
  raise (OtherException "Database not available").

End Notions.

(** ** Sample requests, over binary64 *)

Definition request (s : list (option float)) (m : string) (w : Z) (a : option float) :
    @PredictRequest float :=
  {| series := s; method := m; window := w; alpha := a |}.

(** [{"series": [10, 20, 30, 40], "window": 2}] *)
Definition sample_sma_window2 : @PredictRequest float :=
  request [Some 10; Some 20; Some 30; Some 40]%float "sma" 2 None.

(** [{"series": [10, 20, 30], "method": "SMA", "window": 100}] *)
Definition sample_sma_window100 : @PredictRequest float :=
  request [Some 10; Some 20; Some 30]%float "SMA" 100 None.

(** [{"series": [5, 8, 13], "window": 0}] *)
Definition sample_sma_window0 : @PredictRequest float :=
  request [Some 5; Some 8; Some 13]%float "sma" 0 None.

(** [{"series": [10, 20, 30], "window": 5}] *)
Definition sample_sma_window5 : @PredictRequest float :=
  request [Some 10; Some 20; Some 30]%float "sma" 5 None.

(** [{"series": [10, null, 20], "window": 5}] *)
Definition sample_sma_null : @PredictRequest float :=
  request [Some 10; None; Some 20]%float "sma" 5 None.

(** [{"series": [null, 5]}] *)
Definition sample_short : @PredictRequest float :=
  request [None; Some 5]%float "sma" 3 None.

(** [{"series": [10, 20, 30], "method": "ema", "window": 7, "alpha": 0.5}] *)
Definition sample_ema_alpha : @PredictRequest float :=
  request [Some 10; Some 20; Some 30]%float "ema" 7 (Some 0.5%float).

(** [{"series": [10, 20, 30], "method": "ema", "window": 3}] *)
Definition sample_ema_default : @PredictRequest float :=
  request [Some 10; Some 20; Some 30]%float "ema" 3 None.

(** [{"series": [1, 2], "method": "ema", "window": -1}] *)
Definition sample_ema_window_minus1 : @PredictRequest float :=
  request [Some 1; Some 2]%float "ema" (-1) None.

(** [{"series": [10, 20, 30], "method": "arima"}] *)
Definition sample_arima : @PredictRequest float :=
  request [Some 10; Some 20; Some 30]%float "arima" 3 None.

(** [{"series": [1, -5], "window": 1}] *)
Definition sample_sma_negative : @PredictRequest float :=
  request [Some 1; Some (-5)]%float "sma" 1 None.

(** [{"series": [1e308, 1e308], "window": 2}], the two values written as
    the doubles nearest to [1e308]. *)
Definition sample_sma_huge : @PredictRequest float :=
  request [Some 0x1.1ccf385ebc8ap+1023; Some 0x1.1ccf385ebc8ap+1023]%float "sma" 2 None.

(** ** The other endpoints of [main.py] *)

(** *** Documents *)

(** The values a stored document holds, through the operations the
    handlers apply to them. *)
Class PyValue (V : Type) : Type := {
  (** [str(v)] *)
  py_str : V -> string;
  (** a Python [str], as a value *)
  str_value : string -> V;
  (** [isinstance(v, date)] *)
  is_date : V -> bool;
  (** [v.isoformat()], for a date *)
  isoformat : V -> string
}.

(** [str] of a [str] is that [str], and a [str] is not a date. *)
Class PyValueLaws (V : Type) {PV : PyValue V} : Prop := {
  py_str_str_value : forall s, py_str (str_value s) = s;
  is_date_str_value : forall s, is_date (str_value s) = false
}.

(** A [dict] with [str] keys: its items in insertion order. *)
Definition Doc (V : Type) : Type := list (string * V).

(** [d.get(k)]; [k in d] is [dict_get k d] being [Some]. *)
Fixpoint dict_get {V : Type} (k : string) (d : Doc V) : option V :=
  match d with
  | [] => None
  | (k', v) :: d' => if (k' =? k)%string then Some v else dict_get k d'
  end.

(** [d[k] = v]: an existing key keeps its place, a new one goes last. *)
Fixpoint dict_set {V : Type} (k : string) (v : V) (d : Doc V) : Doc V :=
  match d with
  | [] => [(k, v)]
  | (k', v') :: d' =>
      if (k' =? k)%string then (k', v) :: d' else (k', v') :: dict_set k v d'
  end.

Definition keys {V : Type} (d : Doc V) : list string := map fst d.

(** *** The schemas of the two create endpoints (schemas.py) *)

Section Schemas.

Context {F : Type}.

(** [class SalesRecord(BaseModel)] *)
Record SalesRecord : Type := {
  date : string;
  revenue : F;
  units : option Z;
  note : option string
}.

(** [class Profile(BaseModel)] *)
Record Profile : Type := {
  business_name : string;
  owner_name : string;
  email : option string;
  phone : option string;
  address : option string;
  category : option string;
  description : option string
}.

End Schemas.

(** [{"inserted_id": ...}] *)
Record Inserted (Id : Type) : Type := { inserted_id : Id }.

(** *** The handlers *)

Section Endpoints.

Context {F : Type} {V : Type} {PV : PyValue V} {DB Id : Type}.

(** [str(e)] for an exception. *)
Variable exc_str : PyExc -> string.

Local Notation "x <- m ;; k" := (bind m (fun x => k))
  (at level 61, m at next level, right associativity).

(** [add_sales], main.py lines 56-62. *)
Definition add_sales
    (create_document : string -> @SalesRecord F -> Py DB Id)
    (record : @SalesRecord F) : Py DB (Inserted Id) :=
  try_except
    (new_id <- create_document "salesrecord" record ;;
     ret {| inserted_id := new_id |})
    (fun e => raise (HTTPException 500 (exc_str e))).

(** [create_profile], main.py lines 139-145. *)
Definition create_profile
    (create_document : string -> Profile -> Py DB Id)
    (profile : Profile) : Py DB (Inserted Id) :=
  try_except
    (new_id <- create_document "profile" profile ;;
     ret {| inserted_id := new_id |})
    (fun e => raise (HTTPException 500 (exc_str e))).

(** [if "_id" in d: d["_id"] = str(d["_id"])] *)
Definition stringify_id (d : Doc V) : Doc V :=
  match dict_get "_id" d with
  | Some v => dict_set "_id" (str_value (py_str v)) d
  | None => d
  end.

(** [if isinstance(d.get("date"), (date,)): d["date"] = d["date"].isoformat()] *)
Definition isoformat_date (d : Doc V) : Doc V :=
  match dict_get "date" d with
  | Some v => if is_date v then dict_set "date" (str_value (isoformat v)) d else d
  | None => d
  end.

(** [list_sales], main.py lines 64-76.  The loop rewrites each document
    of the fresh list [get_documents] returned, and the list is returned. *)
Definition list_sales
    (get_documents : string -> Doc V -> option Z -> Py DB (list (Doc V)))
    (limit : option Z) : Py DB (list (Doc V)) :=
  try_except
    (docs <- get_documents "salesrecord" [] limit ;;
     ret (map (fun d => isoformat_date (stringify_id d)) docs))
    (fun e => raise (HTTPException 500 (exc_str e))).

(** [get_profiles], main.py lines 128-137. *)
Definition get_profiles
    (get_documents : string -> Doc V -> option Z -> Py DB (list (Doc V)))
    (limit : option Z) : Py DB (list (Doc V)) :=
  try_except
    (docs <- get_documents "profile" [] limit ;;
     ret (map (fun d => stringify_id d) docs))
    (fun e => raise (HTTPException 500 (exc_str e))).

End Endpoints.

(** *** The database check *)

(** A [str] is held as its UTF-8 bytes; a byte [10xxxxxx] continues the
    character begun before it. *)
Definition is_continuation (c : ascii) : bool :=
  let n := nat_of_ascii c in ((128 <=? n) && (n <? 192))%nat.

(** [len(s)]: the number of characters. *)
Fixpoint str_len (s : string) : nat :=
  match s with
  | EmptyString => 0%nat
  | String c s' => if is_continuation c then str_len s' else S (str_len s')
  end.

(** [s[:n]]: the first [n] characters. *)
Fixpoint str_take (n : nat) (s : string) : string :=
  match s with
  | EmptyString => EmptyString
  | String c s' =>
      if is_continuation c then String c (str_take n s')
      else match n with
           | O => EmptyString
           | S n' => String c (str_take n' s')
           end
  end.

(** The [response] dict of [test_database]: its six keys. *)
Record DatabaseReport : Type := {
  backend : string;
  database : string;
  database_url : option string;
  database_name : option string;
  connection_status : string;
  collections : list string
}.

Definition set_database (v : string) (r : DatabaseReport) : DatabaseReport :=
  {| backend := backend r; database := v; database_url := database_url r;
     database_name := database_name r; connection_status := connection_status r;
     collections := collections r |}.

Definition set_database_url (v : string) (r : DatabaseReport) : DatabaseReport :=
  {| backend := backend r; database := database r; database_url := Some v;
     database_name := database_name r; connection_status := connection_status r;
     collections := collections r |}.

Definition set_database_name (v : string) (r : DatabaseReport) : DatabaseReport :=
  {| backend := backend r; database := database r; database_url := database_url r;
     database_name := Some v; connection_status := connection_status r;
     collections := collections r |}.

Definition set_connection_status (v : string) (r : DatabaseReport) : DatabaseReport :=
  {| backend := backend r; database := database r; database_url := database_url r;
     database_name := database_name r; connection_status := v;
     collections := collections r |}.

Definition set_collections (v : list string) (r : DatabaseReport) : DatabaseReport :=
  {| backend := backend r; database := database r; database_url := database_url r;
     database_name := database_name r; connection_status := connection_status r;
     collections := v |}.

Section DatabaseCheck.

Context {DB Handle : Type}.

(** [str(e)] for an exception. *)
Variable exc_str : PyExc -> string.

(** [os.getenv]. *)
Variable getenv : string -> option string.

(** [db.name], when [hasattr(db, 'name')]. *)
Variable name_of : Handle -> option string.

(** [db.list_collection_names()]. *)
Variable list_collection_names : Handle -> Py DB (list string).

Local Notation "x <- m ;; k" := (bind m (fun x => k))
  (at level 61, m at next level, right associativity).

(** Statements of [test_database] run on the store and on the [response]
    dict they fill in. *)
Definition assign (f : DatabaseReport -> DatabaseReport) :
    Py (DB * DatabaseReport) unit :=
  fun s => (inr tt, (fst s, f (snd s))).

Definition on_store {A : Type} (m : Py DB A) : Py (DB * DatabaseReport) A :=
  fun s => let (r, db') := m (fst s) in (r, (db', snd s)).

(** The truth value of a [str] or [None]. *)
Definition truthy (v : option string) : bool :=
  match v with
  | Some (String _ _) => true
  | _ => false
  end.

(** [test_database], main.py lines 25-53. *)
Definition test_database (db : option Handle) : Py DB DatabaseReport :=
  fun store =>
    let response :=
      {| backend := "✅ Running";
         database := "❌ Not Available";
         database_url := None;
         database_name := None;
         connection_status := "Not Connected";
         collections := [] |} in
    let '(outcome, (store', response')) :=
      try_except
        (match db with
         | Some h =>
             _ <- assign (set_database "✅ Available") ;;
             _ <- assign (set_database_url
                            (if truthy (getenv "DATABASE_URL")
                             then "✅ Set" else "❌ Not Set")) ;;
             _ <- assign (set_database_name
                            (match name_of h with
                             | Some n => n
                             | None => "❌ Unknown"
                             end)) ;;
             _ <- assign (set_connection_status "Connected") ;;
             try_except
               (names <- on_store (list_collection_names h) ;;
                _ <- assign (set_collections (firstn 10 names)) ;;
                assign (set_database "✅ Connected & Working"))
               (fun e =>
                  assign (set_database
                            ("⚠️ Connected but Error: " ++ str_take 80 (exc_str e))))
         | None => assign (set_database "⚠️ Available but not initialized")
         end)
        (fun e => assign (set_database ("❌ Error: " ++ str_take 80 (exc_str e))))
        (store, response) in
    (match outcome with
     | inl e => inl e
     | inr _ => inr response'
     end, store').

End DatabaseCheck.

(** *** Sample documents *)

(** A few of the values MongoDB hands back, enough to run the handlers. *)
Inductive MongoValue : Type :=
| MNull
| MStr (s : string)
| MInt (z : Z)
| MObjectId (hex : string)
| MDate (year month day : Z).

Definition decimal (z : Z) : string := NilZero.string_of_int (Z.to_int z).

(** [z] in decimal, padded with zeros to [width] digits, for [z >= 0]. *)
Definition zero_padded (width : nat) (z : Z) : string :=
  let digits := decimal z in
  String.concat "" (repeat "0" (width - String.length digits)) ++ digits.

Definition mongo_isoformat (v : MongoValue) : string :=
  match v with
  | MDate y m d => zero_padded 4 y ++ "-" ++ zero_padded 2 m ++ "-" ++ zero_padded 2 d
  | _ => ""
  end.

#[export] Instance mongo_value : PyValue MongoValue := {
  py_str := fun v =>
    match v with
    | MNull => "None"
    | MStr s => s
    | MInt z => decimal z
    | MObjectId hex => hex
    | MDate _ _ _ => mongo_isoformat v
    end;
  str_value := MStr;
  is_date := fun v => match v with MDate _ _ _ => true | _ => false end;
  isoformat := mongo_isoformat
}.

Definition sample_sale : Doc MongoValue :=
  [("_id", MObjectId "65f1c0ffee0123456789abcd");
   ("date", MDate 2024 3 9);
   ("revenue", MInt 125000);
   ("note", MNull)].

Definition sample_profile : Doc MongoValue :=
  [("_id", MObjectId "65f1c0ffee0123456789abce");
   ("business_name", MStr "Warung Sari");
   ("owner_name", MStr "Sari")].

(** A collection that answers every query with the same documents, cut
    to the limit, and one that is down. *)
Definition fixed_documents (docs : list (Doc MongoValue))
    (c : string) (filter : Doc MongoValue) (limit : option Z) :
    Py unit (list (Doc MongoValue)) :=
  ret (match limit with
       | Some n => firstn (Z.to_nat n) docs
       | None => docs
       end).

Definition unavailable_documents
    (c : string) (filter : Doc MongoValue) (limit : option Z) :
    Py unit (list (Doc MongoValue)) :=
  raise (OtherException "Database not available").

(** [str(e)], for the exceptions the stand-ins raise. *)
Definition sample_exc_str (e : PyExc) : string :=
  match e with
  | OtherException message => message
  | HTTPException status_code detail => decimal status_code ++ ": " ++ detail
  | ZeroDivisionError => "division by zero"
  | IndexError => "list index out of range"
  | ValidationError fields => String.concat ", " fields
  end.

(** ** Lists and slices *)

Section ListFacts.

Context {A : Type}.

Lemma slice_from_neg (w : Z) (l : list A) :
  1 <= w <= len l ->
  slice_from (- w) l = skipn (List.length l - Z.to_nat w) l.
Proof.
  intros Hw. unfold slice_from, len in *.
  destruct (Z.ltb_spec (- w) 0) as [_ | Hge]; [| lia].
  f_equal. lia.
Qed.

Lemma slice_from_1_cons (x : A) (l : list A) : slice_from 1 (x :: l) = l.
Proof.
  unfold slice_from, len. cbn [List.length].
  destruct (Z.ltb_spec 1 0) as [Hlt | _]; [lia |].
  replace (Z.to_nat (Z.min 1 (Z.of_nat (S (List.length l))))) with 1%nat by lia.
  reflexivity.
Qed.

Lemma skipn_last (pre : list A) (x : A) :
  skipn (List.length (pre ++ [x]) - 1) (pre ++ [x]) = [x].
Proof.
  rewrite length_app. cbn [List.length].
  replace (List.length pre + 1 - 1)%nat with (List.length pre) by lia.
  rewrite skipn_app, skipn_all, Nat.sub_diag. reflexivity.
Qed.

Lemma two_points (data : list A) :
  (2 <= List.length data)%nat ->
  exists x0 rest, data = x0 :: rest /\ rest <> [].
Proof.
  destruct data as [| x0 [| x1 rest]]; cbn; intros H; try lia.
  exists x0, (x1 :: rest). split; [reflexivity | discriminate].
Qed.

Lemma nonempty_last (data : list A) :
  (1 <= List.length data)%nat -> exists pre x, data = (pre ++ [x])%list.
Proof.
  intros H. destruct (exists_last (l := data)) as [pre [x E]].
  - intros ->. cbn in H. lia.
  - exists pre, x. exact E.
Qed.

End ListFacts.

Section TrailingFacts.

Context {F : Type} {PF : PyFloat F}.

Lemma trailing_length (k : nat) (l : list F) :
  List.length (trailing k l) = Nat.min k (List.length l).
Proof. unfold trailing. rewrite length_skipn. lia. Qed.

Lemma trailing_suffix (k : nat) (l : list F) :
  exists pre, l = (pre ++ trailing k l)%list.
Proof.
  exists (firstn (List.length l - k) l). unfold trailing.
  symmetry. apply firstn_skipn.
Qed.

Lemma trailing_all (k : nat) (l : list F) :
  (List.length l <= k)%nat -> trailing k l = l.
Proof.
  intros H. unfold trailing.
  replace (List.length l - k)%nat with 0%nat by lia. reflexivity.
Qed.

Lemma trailing_one (pre : list F) (x : F) : trailing 1 (pre ++ [x]) = [x].
Proof. apply skipn_last. Qed.

Lemma ema_loop_fold (a e : F) (vs : list F) : ema_loop a e vs = ema_fold a e vs.
Proof.
  revert e. induction vs as [| v vs IH]; intros e; [reflexivity |].
  cbn [ema_loop]. rewrite IH. reflexivity.
Qed.

Lemma clean_filter (s : list (option F)) :
  map Some (clean s) = filter (fun x => match x with Some _ => true | None => false end) s.
Proof.
  induction s as [| [x |] s IH]; cbn; [reflexivity | f_equal; exact IH | exact IH].
Qed.

End TrailingFacts.

(** ** Running the handler *)

Section Handler.

Context {F : Type} {PF : PyFloat F} {DB Id : Type}.

Variable create_document : string -> @Prediction F -> Py DB Id.

Implicit Types (req : @PredictRequest F) (db : DB) (data : list F).

Lemma bind_ret {A B : Type} (a : A) (k : A -> Py DB B) db :
  bind (ret a) k db = k a db.
Proof. reflexivity. Qed.

(** The persistence step never raises, and answers with the value, the
    method and the window it was given. *)
Lemma save_and_respond_answer m w data pv db :
  exists sid,
    fst (save_and_respond create_document m w data pv db) =
    inr {| predicted := pv; resp_method := m; resp_window := w; saved_id := sid |}.
Proof.
  unfold save_and_respond, bind, try_except, Prediction_init, ret, raise.
  destruct (Prediction_errors w pv).
  - destruct (create_document _ _ db) as [[e | i] db']; eexists; reflexivity.
  - eexists; reflexivity.
Qed.

Lemma predict_too_short req db :
  (List.length (clean (series req)) < 2)%nat ->
  predict create_document req db = (inl too_short, db).
Proof.
  intros H. unfold predict.
  destruct (Nat.ltb_spec (List.length (clean (series req))) 2); [reflexivity | lia].
Qed.

Lemma predict_sma req db :
  lower (method req) = "sma" ->
  (2 <= List.length (clean (series req)))%nat ->
  predict create_document req db =
  save_and_respond create_document "sma" (window req) (clean (series req))
    (mean (trailing
             (Z.to_nat (Z.max 1 (Z.min (window req) (len (clean (series req))))))
             (clean (series req)))) db.
Proof.
  intros Hm Hlen. unfold predict.
  destruct (Nat.ltb_spec (List.length (clean (series req))) 2); [lia |].
  rewrite Hm. cbn [String.eqb Ascii.eqb Bool.eqb].
  set (data := clean (series req)) in *.
  set (w := Z.max 1 (Z.min (window req) (len data))).
  assert (Hw : 1 <= w <= len data) by (unfold w, len in *; lia).
  rewrite (slice_from_neg _ Hw).
  unfold truediv_float_int.
  destruct (Z.eqb_spec (len (skipn (List.length data - Z.to_nat w) data)) 0) as [H0 | _].
  - unfold len in H0, Hw. rewrite length_skipn in H0. lia.
  - rewrite bind_ret. reflexivity.
Qed.

Lemma predict_ema req db a x0 rest :
  lower (method req) = "ema" ->
  clean (series req) = x0 :: rest ->
  rest <> [] ->
  alpha req = Some a ->
  predict create_document req db =
  save_and_respond create_document "ema" (window req) (x0 :: rest)
    (ema_fold a x0 rest) db.
Proof.
  intros Hm Hdata Hrest Ha. unfold predict. rewrite Hdata.
  destruct rest as [| x1 rest]; [congruence |].
  cbn [List.length Nat.ltb Nat.leb].
  rewrite Hm, Ha. cbn [String.eqb Ascii.eqb Bool.eqb getitem0].
  rewrite slice_from_1_cons. cbv beta iota delta [bind ret].
  rewrite ema_loop_fold. reflexivity.
Qed.

Lemma predict_ema_default req db x0 rest :
  lower (method req) = "ema" ->
  clean (series req) = x0 :: rest ->
  rest <> [] ->
  alpha req = None ->
  window req + 1 <> 0 ->
  predict create_document req db =
  save_and_respond create_document "ema" (window req) (x0 :: rest)
    (ema_fold (int_truediv 2 (window req + 1)) x0 rest) db.
Proof.
  intros Hm Hdata Hrest Ha Hw. unfold predict. rewrite Hdata.
  destruct rest as [| x1 rest]; [congruence |].
  cbn [List.length Nat.ltb Nat.leb].
  rewrite Hm, Ha. cbn [String.eqb Ascii.eqb Bool.eqb getitem0].
  unfold truediv_int_int.
  destruct (Z.eqb_spec (window req + 1) 0); [contradiction |].
  rewrite slice_from_1_cons. cbv beta iota delta [bind ret].
  rewrite ema_loop_fold. reflexivity.
Qed.

Lemma predict_ema_zero_division req db :
  lower (method req) = "ema" ->
  (2 <= List.length (clean (series req)))%nat ->
  alpha req = None ->
  window req = -1 ->
  predict create_document req db = (inl ZeroDivisionError, db).
Proof.
  intros Hm Hlen Ha Hw. unfold predict.
  destruct (Nat.ltb_spec (List.length (clean (series req))) 2); [lia |].
  rewrite Hm, Ha, Hw. reflexivity.
Qed.

Lemma predict_unknown_method req db :
  (2 <= List.length (clean (series req)))%nat ->
  lower (method req) <> "sma" ->
  lower (method req) <> "ema" ->
  predict create_document req db = (inl unknown_method, db).
Proof.
  intros Hlen Hs He. unfold predict.
  destruct (Nat.ltb_spec (List.length (clean (series req))) 2); [lia |].
  destruct (String.eqb_spec (lower (method req)) "sma"); [contradiction |].
  destruct (String.eqb_spec (lower (method req)) "ema"); [contradiction |].
  reflexivity.
Qed.

Lemma forecast_save_and_respond req db m w data pv :
  predict create_document req db = save_and_respond create_document m w data pv db ->
  forecast create_document req db = inr pv.
Proof.
  intros E. unfold forecast. rewrite E.
  destruct (save_and_respond_answer m w data pv db) as [sid ->]. reflexivity.
Qed.

End Handler.

(** ** The moving averages *)

Section Averages.

Context {F : Type} {PF : PyFloat F} {DB Id : Type}.

Variable create_document : string -> @Prediction F -> Py DB Id.

Implicit Types (req : @PredictRequest F) (db : DB).

(** C1.  With at least two usable points and method [sma], the handler
    answers with the arithmetic mean of the trailing [w] elements of the
    cleaned series, [w = max(1, min(window, len(data)))], and that slice
    has exactly [w] elements.  When [window >= len(data)] this is the mean
    of the whole cleaned series; when [window <= 0] it is the mean of the
    last element alone, which is that element wherever adding it to zero
    and dividing by one is exact. *)
Theorem sma_mean_of_trailing_window req db :
  lower (method req) = "sma" ->
  (2 <= List.length (clean (series req)))%nat ->
  let data := clean (series req) in
  let w := Z.max 1 (Z.min (window req) (len data)) in
  forecast create_document req db = inr (mean (trailing (Z.to_nat w) data))
  /\ List.length (trailing (Z.to_nat w) data) = Z.to_nat w
  /\ (len data <= window req ->
      forecast create_document req db = inr (mean data))
  /\ (window req <= 0 ->
      exists pre x,
        data = (pre ++ [x])%list
        /\ forecast create_document req db = inr (mean [x])
        /\ (unit_exact x -> forecast create_document req db = inr x)).
Proof.
  intros Hm Hlen data w.
  assert (Hf : forecast create_document req db =
               inr (mean (trailing (Z.to_nat w) data))).
  { eapply forecast_save_and_respond. apply predict_sma; assumption. }
  assert (Hw : 1 <= w <= len data) by (unfold w, len, data in *; lia).
  split; [exact Hf |].
  split; [rewrite trailing_length; unfold len in Hw; lia |].
  split.
  - intros Hbig. rewrite Hf. do 2 f_equal. apply trailing_all.
    unfold w, len in *. lia.
  - intros Hsmall.
    destruct (nonempty_last data) as (pre & x & Hdata);
      [unfold data; lia |].
    exists pre, x. split; [exact Hdata |].
    assert (E : trailing (Z.to_nat w) data = [x]).
    { replace (Z.to_nat w) with 1%nat by (unfold w; lia).
      rewrite Hdata. apply trailing_one. }
    rewrite Hf, E. split; [reflexivity |].
    intros Hx. f_equal. exact Hx.
Qed.

(** C2.  With at least two usable points, method [ema] and a supplied
    [alpha = a], the handler answers with the left-to-right fold that
    starts at [data[0]] and applies [estimate = a*v + (1-a)*estimate] to
    every later element of the cleaned series, whatever the window. *)
Theorem ema_explicit_alpha_is_fold req db a :
  lower (method req) = "ema" ->
  (2 <= List.length (clean (series req)))%nat ->
  alpha req = Some a ->
  exists x0 rest,
    clean (series req) = x0 :: rest /\
    forecast create_document req db =
    inr (fold_left
           (fun estimate v => (a * v + (float_of_int 1 - a) * estimate)%py)
           rest x0).
Proof.
  intros Hm Hlen Ha.
  destruct (two_points _ Hlen) as (x0 & rest & Hdata & Hrest).
  exists x0, rest. split; [exact Hdata |].
  eapply forecast_save_and_respond.
  apply predict_ema; eassumption.
Qed.

(** C4.  With at least two usable points and method [ema]: a supplied
    alpha is the smoothing factor of the recurrence as it stands, whatever
    its value and whatever the window; without one the factor is the value
    of [2 / (window + 1)], an expression that raises when [window + 1] is
    zero. *)
Theorem ema_smoothing_factor req db :
  lower (method req) = "ema" ->
  (2 <= List.length (clean (series req)))%nat ->
  exists x0 rest,
    clean (series req) = x0 :: rest /\
    match alpha req with
    | Some a => forecast create_document req db = inr (ema_fold a x0 rest)
    | None =>
        if window req + 1 =? 0
        then forecast create_document req db = inl ZeroDivisionError
        else forecast create_document req db =
             inr (ema_fold (int_truediv 2 (window req + 1)) x0 rest)
    end.
Proof.
  intros Hm Hlen.
  destruct (two_points _ Hlen) as (x0 & rest & Hdata & Hrest).
  exists x0, rest. split; [exact Hdata |].
  destruct (alpha req) as [a |] eqn:Ha.
  - eapply forecast_save_and_respond. apply predict_ema; eassumption.
  - destruct (Z.eqb_spec (window req + 1) 0) as [H0 | Hn0].
    + unfold forecast. rewrite predict_ema_zero_division; auto. lia.
    + eapply forecast_save_and_respond. apply predict_ema_default; eassumption.
Qed.

(** C8.  With at least two usable points and a supplied alpha, the [ema]
    answer does not depend on the window: two requests that differ in the
    window alone get the same number. *)
Theorem ema_explicit_alpha_ignores_window s m a w1 w2 db :
  lower m = "ema" ->
  (2 <= List.length (clean s))%nat ->
  exists v,
    forecast create_document
      {| series := s; method := m; window := w1; alpha := Some a |} db = inr v /\
    forecast create_document
      {| series := s; method := m; window := w2; alpha := Some a |} db = inr v.
Proof.
  intros Hm Hlen.
  destruct (two_points _ Hlen) as (x0 & rest & Hdata & Hrest).
  exists (ema_fold a x0 rest).
  split; eapply forecast_save_and_respond; apply predict_ema; cbn; eauto.
Qed.

End Averages.

(** ** The two request errors *)

Section Rejections.

Context {F : Type} {PF : PyFloat F} {DB Id : Type}.

Variable create_document : string -> @Prediction F -> Py DB Id.

Implicit Types (req : @PredictRequest F) (db : DB).

Lemma clean_map_Some (l : list F) : clean (map Some l) = l.
Proof. induction l as [| x l IH]; cbn; [reflexivity | f_equal; exact IH]. Qed.

(** C5.  The cleaned series is the input series without its null entries,
    in the same order; the handler behaves on a series exactly as on its
    cleaned form, so nulls are gone before the length check and before any
    arithmetic; and when fewer than two points remain it raises the
    series-too-short error (HTTP 400), whatever the method, the window and
    the alpha, without touching the store. *)
Theorem nulls_dropped_then_short_series_rejected req db :
  let data := clean (series req) in
  map Some data =
    filter (fun x => match x with Some _ => true | None => false end) (series req)
  /\ predict create_document req db =
     predict create_document
       {| series := map Some data; method := method req;
          window := window req; alpha := alpha req |} db
  /\ ((List.length data < 2)%nat ->
      predict create_document req db = (inl too_short, db)).
Proof.
  intros data. split; [apply clean_filter |]. split.
  - unfold predict. cbn [series method window alpha].
    rewrite clean_map_Some. reflexivity.
  - apply predict_too_short.
Qed.

(** C6.  With at least two usable points and a method whose lowercase
    form is neither [sma] nor [ema], the handler raises the unknown-method
    error (HTTP 400); the store is left as it was. *)
Theorem unknown_method_rejected req db :
  (2 <= List.length (clean (series req)))%nat ->
  lower (method req) <> "sma" ->
  lower (method req) <> "ema" ->
  predict create_document req db = (inl unknown_method, db).
Proof. apply predict_unknown_method. Qed.

End Rejections.

(** ** Persistence is best effort *)

(** Up to the persistence step a run does not depend on the collaborator:
    either it raises before that step, or it reaches it with a value fixed
    by the request. *)
Lemma predict_shape {F : Type} {PF : PyFloat F} (req : @PredictRequest F) :
  (exists e,
     (e = too_short \/ e = unknown_method \/ e = ZeroDivisionError) /\
     forall (DB Id : Type) (cd : string -> Prediction -> Py DB Id) (db : DB),
       predict cd req db = (inl e, db))
  \/
  (exists pv,
     forall (DB Id : Type) (cd : string -> Prediction -> Py DB Id) (db : DB),
       predict cd req db =
       save_and_respond cd (lower (method req)) (window req)
         (clean (series req)) pv db).
Proof.
  destruct (Nat.ltb_spec (List.length (clean (series req))) 2) as [Hshort | Hlen].
  { left. exists too_short. split; [auto |]. intros. apply predict_too_short; assumption. }
  destruct (String.eqb_spec (lower (method req)) "sma") as [Hs | Hs].
  { right. eexists. intros. rewrite Hs. apply predict_sma; eassumption. }
  destruct (String.eqb_spec (lower (method req)) "ema") as [He | He].
  2:{ left. exists unknown_method. split; [auto |].
      intros. apply predict_unknown_method; assumption. }
  destruct (two_points _ Hlen) as (x0 & rest & Hdata & Hrest).
  destruct (alpha req) as [a |] eqn:Ha.
  { right. exists (ema_fold a x0 rest). intros. rewrite He, Hdata.
    apply predict_ema; assumption. }
  destruct (Z.eq_dec (window req + 1) 0) as [H0 | Hn0].
  - left. exists ZeroDivisionError. split; [auto |].
    intros. apply predict_ema_zero_division; try assumption. lia.
  - right. exists (ema_fold (int_truediv 2 (window req + 1)) x0 rest).
    intros. rewrite He, Hdata. apply predict_ema_default; assumption.
Qed.

Section Persistence.

Context {F : Type} {PF : PyFloat F}.

Implicit Types (req : @PredictRequest F).

(** What the persistence step does, by cases on the record's validation
    and on the collaborator's answer. *)
Lemma save_and_respond_cases {DB Id : Type}
    (cd : string -> @Prediction F -> Py DB Id) m w data pv (db : DB) :
  (Prediction_errors w pv <> [] /\
   save_and_respond cd m w data pv db =
   (inr {| predicted := pv; resp_method := m; resp_window := w; saved_id := None |}, db))
  \/
  (Prediction_errors w pv = [] /\
   let doc := {| pred_method := m; pred_window := w;
                 input_points := data; predicted_value := pv |} in
   save_and_respond cd m w data pv db =
   (inr {| predicted := pv; resp_method := m; resp_window := w;
           saved_id := match fst (cd "prediction" doc db) with
                       | inr i => Some i
                       | inl _ => None
                       end |},
    snd (cd "prediction" doc db))).
Proof.
  unfold save_and_respond, bind, try_except, Prediction_init, ret, raise.
  destruct (Prediction_errors w pv) as [| e errs].
  - right. split; [reflexivity |]. cbv zeta.
    destruct (cd _ _ db) as [[e | i] db']; reflexivity.
  - left. split; [discriminate | reflexivity].
Qed.

Lemma Prediction_errors_nil w (pv : F) :
  Prediction_errors w pv = [] <->
  (1 <= w <= 90 /\ float_ge pv (float_of_int 0) = true).
Proof.
  unfold Prediction_errors.
  destruct (Z.leb_spec 1 w), (Z.leb_spec w 90),
    (float_ge pv (float_of_int 0)); cbn; split;
    try discriminate; try (intros [? ?]; lia || discriminate);
    try (intros _; split; [lia | reflexivity]); try reflexivity.
Qed.

(** C7.  Compare a run with any collaborator against a run with one that
    always fails: when the computation succeeds both answer, with the same
    predicted value, method and window, and the failing one with a null
    [saved_id]; when the computation fails both raise the same request
    error.  The storage error itself never leaves the handler. *)
Theorem persistence_failure_is_swallowed
    {DB1 Id1 DB2 Id2 : Type}
    (cd_any : string -> @Prediction F -> Py DB1 Id1)
    (cd_down : string -> @Prediction F -> Py DB2 Id2)
    req (db1 : DB1) (db2 : DB2) :
  (forall doc db, exists e db', cd_down "prediction" doc db = (inl e, db')) ->
  match fst (predict cd_any req db1), fst (predict cd_down req db2) with
  | inr r1, inr r2 =>
      predicted r2 = predicted r1 /\ resp_method r2 = resp_method r1 /\
      resp_window r2 = resp_window r1 /\ saved_id r2 = None
  | inl e1, inl e2 =>
      e1 = e2 /\ (e1 = too_short \/ e1 = unknown_method \/ e1 = ZeroDivisionError)
  | _, _ => False
  end.
Proof.
  intros Hdown.
  destruct (predict_shape req) as [(e & He & Hrun) | (pv & Hrun)];
    rewrite !Hrun.
  - cbn. split; [reflexivity | exact He].
  - destruct (save_and_respond_answer cd_any (lower (method req)) (window req)
                (clean (series req)) pv db1) as [sid ->].
    destruct (save_and_respond_cases cd_down (lower (method req)) (window req)
                (clean (series req)) pv db2) as [[_ ->] | [_ E]].
    + cbn. auto.
    + cbv zeta in E. rewrite E. cbn.
      match goal with
      | |- context [cd_down ?c ?d ?s] => destruct (Hdown d s) as (e & db' & ->)
      end.
      cbn. auto.
Qed.

(** C9 (amended).  A successful [sma] run answers with the window as
    the caller sent it, not the clamped [w] the mean was taken over, also
    when that window is not positive or exceeds the series.  A record is
    handed to the store exactly when the caller's window is within 1..90
    and the predicted value is not negative: then [create_document] is
    called on [prediction] with the record whose window is the caller's,
    the store is left as that call left it and [saved_id] is what it
    returned; otherwise nothing is stored, and [saved_id] is null. *)
Theorem sma_reports_requested_window
    {DB Id : Type} (cd : string -> @Prediction F -> Py DB Id) req (db : DB) :
  lower (method req) = "sma" ->
  (2 <= List.length (clean (series req)))%nat ->
  let data := clean (series req) in
  let w := Z.max 1 (Z.min (window req) (len data)) in
  let pv := mean (trailing (Z.to_nat w) data) in
  let doc := {| pred_method := "sma"; pred_window := window req;
                input_points := data; predicted_value := pv |} in
  if (1 <=? window req) && (window req <=? 90) && float_ge pv (float_of_int 0)
  then
    predict cd req db =
    (inr {| predicted := pv; resp_method := "sma"; resp_window := window req;
            saved_id := match fst (cd "prediction" doc db) with
                        | inr i => Some i
                        | inl _ => None
                        end |},
     snd (cd "prediction" doc db))
  else
    predict cd req db =
    (inr {| predicted := pv; resp_method := "sma"; resp_window := window req;
            saved_id := None |}, db).
Proof.
  intros Hm Hlen data w pv doc.
  rewrite (predict_sma cd req db Hm Hlen). fold data w pv.
  pose proof (Prediction_errors_nil (window req) pv) as Hnil.
  destruct (save_and_respond_cases cd "sma" (window req) data pv db)
    as [[Hbad E] | [Hok E]].
  - destruct ((1 <=? window req) && (window req <=? 90) &&
              float_ge pv (float_of_int 0)) eqn:Hb; [| exact E].
    exfalso. apply Hbad. apply Hnil.
    apply andb_prop in Hb. destruct Hb as [Hb Hpv].
    apply andb_prop in Hb. destruct Hb as [H1 H90].
    split; [lia | exact Hpv].
  - apply Hnil in Hok. destruct Hok as [[H1 H90] Hpv].
    replace (1 <=? window req) with true by (symmetry; apply Z.leb_le; exact H1).
    replace (window req <=? 90) with true by (symmetry; apply Z.leb_le; exact H90).
    rewrite Hpv. exact E.
Qed.

(** C10.  The record is built only when [1 <= window <= 90] and
    [predicted_value >= 0].  For a computation that succeeds with a value
    breaking one of these, building the record raises a validation error,
    the handler catches it, the store is left as it was, and the answer
    carries the value, the method and the window with a null [saved_id]. *)
Theorem invalid_record_is_dropped
    {DB Id : Type} (cd : string -> @Prediction F -> Py DB Id) req (db : DB) pv :
  forecast cd req db = inr pv ->
  (Prediction_errors (window req) pv = [] <->
   (1 <= window req <= 90 /\ float_ge pv (float_of_int 0) = true))
  /\ (~ (1 <= window req <= 90 /\ float_ge pv (float_of_int 0) = true) ->
      (exists errs,
         errs <> [] /\
         Prediction_init (lower (method req)) (window req) (clean (series req)) pv db =
         (inl (ValidationError errs), db))
      /\ predict cd req db =
         (inr {| predicted := pv; resp_method := lower (method req);
                 resp_window := window req; saved_id := None |}, db)).
Proof.
  intros Hpv. split; [apply Prediction_errors_nil |].
  intros Hbad. rewrite <- Prediction_errors_nil in Hbad.
  split.
  - unfold Prediction_init.
    destruct (Prediction_errors (window req) pv) as [| e errs]; [congruence |].
    exists (e :: errs). split; [discriminate | reflexivity].
  - destruct (predict_shape req) as [(e & _ & Hrun) | (pv' & Hrun)].
    + unfold forecast in Hpv. rewrite Hrun in Hpv. discriminate.
    + assert (pv' = pv) as ->.
      { pose proof (forecast_save_and_respond cd req db _ _ _ _ (Hrun _ _ cd db)) as E.
        rewrite Hpv in E. congruence. }
      rewrite Hrun.
      destruct (save_and_respond_cases cd (lower (method req)) (window req)
                  (clean (series req)) pv db) as [[_ ->] | [E _]];
        [reflexivity | contradiction].
Qed.

End Persistence.

(** ** Every way a run can end *)

Section Outcomes.

Context {F : Type} {PF : PyFloat F} {DB Id : Type}.

Variable create_document : string -> @Prediction F -> Py DB Id.

(** A run answers, or raises one of the two request errors, or raises
    [ZeroDivisionError]; the last happens exactly for [ema] without alpha
    at window [-1].  No exception of the collaborator or of the record's
    validation leaves the handler. *)
Theorem predict_outcomes (req : @PredictRequest F) (db : DB) :
  let data := clean (series req) in
  match fst (predict create_document req db) with
  | inr resp =>
      (2 <= List.length data)%nat /\
      (lower (method req) = "sma" \/
       lower (method req) = "ema" /\ (alpha req = None -> window req <> -1))
  | inl e =>
      (e = too_short /\ (List.length data < 2)%nat)
      \/ (e = unknown_method /\ (2 <= List.length data)%nat /\
          lower (method req) <> "sma" /\ lower (method req) <> "ema")
      \/ (e = ZeroDivisionError /\ (2 <= List.length data)%nat /\
          lower (method req) = "ema" /\ alpha req = None /\ window req = -1)
  end.
Proof.
  intros data. subst data.
  destruct (Nat.ltb_spec (List.length (clean (series req))) 2) as [Hshort | Hlen].
  { rewrite predict_too_short by assumption. cbn. auto. }
  destruct (String.eqb_spec (lower (method req)) "sma") as [Hs | Hs].
  { rewrite predict_sma by assumption.
    destruct (save_and_respond_answer create_document "sma" (window req)
                (clean (series req))
                (mean (trailing
                         (Z.to_nat (Z.max 1 (Z.min (window req) (len (clean (series req))))))
                         (clean (series req)))) db) as [sid ->].
    auto. }
  destruct (String.eqb_spec (lower (method req)) "ema") as [He | He].
  2:{ rewrite predict_unknown_method by assumption. cbn. auto 6. }
  destruct (two_points _ Hlen) as (x0 & rest & Hdata & Hrest).
  destruct (alpha req) as [a |] eqn:Ha.
  { rewrite (predict_ema create_document req db He Hdata Hrest Ha).
    destruct (save_and_respond_answer create_document "ema" (window req)
                (x0 :: rest) (ema_fold a x0 rest) db) as [sid ->].
    split; [assumption | right; split; [assumption | discriminate]]. }
  destruct (Z.eq_dec (window req + 1) 0) as [H0 | Hn0].
  - rewrite predict_ema_zero_division by (assumption || lia).
    cbn. right. right. repeat split; try assumption. lia.
  - rewrite (predict_ema_default create_document req db He Hdata Hrest Ha Hn0).
    destruct (save_and_respond_answer create_document "ema" (window req)
                (x0 :: rest) (ema_fold (int_truediv 2 (window req + 1)) x0 rest) db)
      as [sid ->].
    split; [assumption | right; split; [assumption | intros _; lia]].
Qed.

End Outcomes.

(** ** The handler on the specification's examples *)

Section Examples.

Local Open Scope float_scope.

Example sma_window2_is_35 : forecast recording_create sample_sma_window2 [] = inr 35.
Proof. reflexivity. Qed.

Example sma_window100_is_20 : forecast recording_create sample_sma_window100 [] = inr 20.
Proof. reflexivity. Qed.

Example sma_window0_is_13 : forecast recording_create sample_sma_window0 [] = inr 13.
Proof. reflexivity. Qed.

Example ema_alpha_half_is_22_5 : forecast recording_create sample_ema_alpha [] = inr 22.5.
Proof. reflexivity. Qed.

Example ema_default_alpha_is_22_5 : forecast recording_create sample_ema_default [] = inr 22.5.
Proof. reflexivity. Qed.

Example sma_null_is_15 : forecast recording_create sample_sma_null [] = inr 15.
Proof. reflexivity. Qed.

Example short_series_is_rejected :
  predict recording_create sample_short [] = (inl (HTTPException 400 "Series minimal 2 angka"), []).
Proof. reflexivity. Qed.

Example arima_is_rejected :
  predict recording_create sample_arima [] =
  (inl (HTTPException 400 "Method tidak dikenal. Pakai 'sma' atau 'ema'"), []).
Proof. reflexivity. Qed.

(** A window inside the schema's range but above the series length: the
    mean is taken over 3 points and the stored record says 5. *)
Example sma_window5_is_saved_with_window5 :
  predict recording_create sample_sma_window5 [] =
  (inr {| predicted := 20; resp_method := "sma"; resp_window := 5%Z;
          saved_id := Some 0%nat |},
   [("prediction",
     {| pred_method := "sma"; pred_window := 5%Z;
        input_points := [10; 20; 30]; predicted_value := 20 |})]).
Proof. reflexivity. Qed.

(** In binary64 the sum of a long or large series can overflow. *)
Example sma_huge_is_infinite : forecast recording_create sample_sma_huge [] = inr infinity.
Proof. reflexivity. Qed.

End Examples.

(** In exact arithmetic the mean of a single value is that value. *)
Lemma rational_unit_exact (x : Q) : unit_exact (PF := rational) x.
Proof.
  destruct x as [n d]. unfold unit_exact. cbn.
  unfold Qdiv, Qmult, Qinv, Qplus. cbn.
  f_equal; lia.
Qed.

(** ** The theorems at concrete requests *)

Section Instances.

Local Open Scope float_scope.

Lemma sma_mean_of_trailing_window_witness :
  forecast recording_create sample_sma_window0 [] = inr 13.
Proof.
  pose proof (sma_mean_of_trailing_window recording_create sample_sma_window0 []
                eq_refl (le_S 2 2 (le_n 2))) as H.
  cbv zeta in H. destruct H as (_ & _ & _ & H).
  destruct H as (pre & x & Hdata & _ & Hx); [cbn; discriminate |].
  destruct (app_inj_tail [5; 8] pre 13 x Hdata) as [_ <-].
  exact (Hx eq_refl).
Defined.

Lemma ema_explicit_alpha_is_fold_witness :
  exists x0 rest,
    clean (series sample_ema_alpha) = x0 :: rest /\
    forecast recording_create sample_ema_alpha [] =
    inr (fold_left (fun estimate v => 0.5 * v + (1 - 0.5) * estimate) rest x0).
Proof.
  exact (ema_explicit_alpha_is_fold recording_create sample_ema_alpha []
           eq_refl (le_S 2 2 (le_n 2)) eq_refl).
Defined.

Lemma ema_smoothing_factor_witness :
  exists x0 rest,
    clean (series sample_ema_default) = x0 :: rest /\
    forecast recording_create sample_ema_default [] =
    inr (ema_fold (int_truediv 2 4) x0 rest).
Proof.
  exact (ema_smoothing_factor recording_create sample_ema_default []
           eq_refl (le_S 2 2 (le_n 2))).
Defined.

Lemma ema_explicit_alpha_ignores_window_witness :
  exists v,
    forecast recording_create
      (request [Some 10; Some 20; Some 30] "EMA" 3 (Some 0.5)) [] = inr v /\
    forecast recording_create
      (request [Some 10; Some 20; Some 30] "EMA" (-1) (Some 0.5)) [] = inr v.
Proof.
  exact (ema_explicit_alpha_ignores_window recording_create
           [Some 10; Some 20; Some 30] "EMA" 0.5 3 (-1) []
           eq_refl (le_S 2 2 (le_n 2))).
Defined.

Lemma nulls_dropped_then_short_series_rejected_witness :
  predict recording_create sample_short [] = (inl too_short, []).
Proof.
  exact (proj2 (proj2 (nulls_dropped_then_short_series_rejected
                         recording_create sample_short []))
           (le_n 2)).
Defined.

Lemma unknown_method_rejected_witness :
  predict recording_create sample_arima [] = (inl unknown_method, []).
Proof.
  apply (unknown_method_rejected recording_create sample_arima []
           (le_S 2 2 (le_n 2))); cbn; discriminate.
Defined.

Lemma persistence_failure_is_swallowed_witness :
  match fst (predict recording_create sample_sma_window2 []),
        fst (predict unavailable_create sample_sma_window2 tt) with
  | inr r1, inr r2 =>
      predicted r2 = predicted r1 /\ resp_method r2 = resp_method r1 /\
      resp_window r2 = resp_window r1 /\ saved_id r2 = None
  | inl e1, inl e2 =>
      e1 = e2 /\ (e1 = too_short \/ e1 = unknown_method \/ e1 = ZeroDivisionError)
  | _, _ => False
  end.
Proof.
  apply (persistence_failure_is_swallowed recording_create unavailable_create
           sample_sma_window2 [] tt).
  intros doc db. exists (OtherException "Database not available"), db.
  reflexivity.
Defined.

Lemma sma_reports_requested_window_witness :
  predict recording_create sample_sma_window5 [] =
  (inr {| predicted := mean (trailing 3 [10; 20; 30]); resp_method := "sma";
          resp_window := 5%Z; saved_id := Some 0%nat |},
   [("prediction",
     {| pred_method := "sma"; pred_window := 5%Z;
        input_points := [10; 20; 30];
        predicted_value := mean (trailing 3 [10; 20; 30]) |})]).
Proof.
  exact (sma_reports_requested_window recording_create sample_sma_window5 []
           eq_refl (le_S 2 2 (le_n 2))).
Defined.

(** C9, as first stated, at [{"series": [5, 8, 13], "window": 0}]: the run
    succeeds and answers with the window 0, yet no record is stored, so it
    is not so that every successful [sma] run leaves a stored record that
    carries the caller's window. *)
Lemma sma_window0_stores_no_record :
  predict recording_create sample_sma_window0 [] =
    (inr {| predicted := 13; resp_method := "sma"; resp_window := 0%Z;
            saved_id := None |}, [])
  /\ ~ (forall resp stored,
          predict recording_create sample_sma_window0 [] = (inr resp, stored) ->
          resp_window resp = window sample_sma_window0 /\
          exists doc,
            In ("prediction", doc) stored /\
            pred_window doc = window sample_sma_window0).
Proof.
  split; [reflexivity |].
  intros H.
  destruct (H _ _ eq_refl) as (_ & doc & Hin & _).
  exact Hin.
Qed.

Lemma invalid_record_is_dropped_witness :
  predict recording_create sample_sma_window100 [] =
  (inr {| predicted := 20; resp_method := "sma"; resp_window := 100%Z;
          saved_id := None |}, []).
Proof.
  refine (proj2 (proj2 (invalid_record_is_dropped recording_create
                          sample_sma_window100 [] (pv := 20) eq_refl) _)).
  intros [[_ H] _]. exact (H eq_refl).
Defined.

(** C3.  The request [{"series": [1, 2], "method": "ema", "window": -1}]
    passes both checks of the handler and then divides by zero while
    deriving the default alpha: the run ends in [ZeroDivisionError], which
    is neither of the two request errors nor an answer. *)
Theorem ema_default_alpha_divides_by_zero :
  predict recording_create sample_ema_window_minus1 [] = (inl ZeroDivisionError, [])
  /\ ZeroDivisionError <> too_short
  /\ ZeroDivisionError <> unknown_method.
Proof. split; [reflexivity | split; discriminate]. Qed.

End Instances.

(** ** More on [predict]: what reaches the store, and how methods are spelled *)

Section PredictFurther.

Context {F : Type} {PF : PyFloat F} {DB Id : Type}.

Variable create_document : string -> @Prediction F -> Py DB Id.

Implicit Types (req : @PredictRequest F) (db : DB).

(** The ways through [predict], each with the run it gives. *)
Lemma predict_cases req db :
  let data := clean (series req) in
  ((List.length data < 2)%nat /\
   predict create_document req db = (inl too_short, db))
  \/ ((2 <= List.length data)%nat /\
      lower (method req) <> "sma" /\ lower (method req) <> "ema" /\
      predict create_document req db = (inl unknown_method, db))
  \/ ((2 <= List.length data)%nat /\ lower (method req) = "ema" /\
      predict create_document req db = (inl ZeroDivisionError, db))
  \/ ((2 <= List.length data)%nat /\
      (lower (method req) = "sma" \/ lower (method req) = "ema") /\
      exists pv,
        predict create_document req db =
        save_and_respond create_document (lower (method req)) (window req) data pv db).
Proof.
  intros data. subst data.
  destruct (Nat.ltb_spec (List.length (clean (series req))) 2) as [Hshort | Hlen].
  { left. split; [assumption | apply predict_too_short; assumption]. }
  destruct (String.eqb_spec (lower (method req)) "sma") as [Hs | Hs].
  { right; right; right. split; [assumption |]. split; [auto |].
    eexists. rewrite Hs. apply predict_sma; assumption. }
  destruct (String.eqb_spec (lower (method req)) "ema") as [He | He].
  2:{ right; left. repeat split; try assumption.
      apply predict_unknown_method; assumption. }
  destruct (two_points _ Hlen) as (x0 & rest & Hdata & Hrest).
  destruct (alpha req) as [a |] eqn:Ha.
  { right; right; right. split; [assumption |]. split; [auto |].
    exists (ema_fold a x0 rest). rewrite He, Hdata.
    apply predict_ema; assumption. }
  destruct (Z.eq_dec (window req + 1) 0) as [H0 | Hn0].
  - right; right; left. repeat split; try assumption.
    apply predict_ema_zero_division; try assumption. lia.
  - right; right; right. split; [assumption |]. split; [auto |].
    exists (ema_fold (int_truediv 2 (window req + 1)) x0 rest).
    rewrite He, Hdata. apply predict_ema_default; assumption.
Qed.

(** A run that answers has either left the store alone, with a null
    [saved_id], or called [create_document] once, on the collection
    [prediction], with a record that satisfies the schema and repeats the
    answer: the method as answered ([sma] or [ema]), the caller's window
    (within 1..90), the cleaned series (two points or more) and the
    predicted value (not negative).  A run that raises leaves the store
    alone. *)
Theorem predict_saves_at_most_one_valid_record req db :
  match predict create_document req db with
  | (inl _, db') => db' = db
  | (inr resp, db') =>
      (saved_id resp = None /\ db' = db)
      \/ exists doc,
           pred_method doc = resp_method resp /\
           (pred_method doc = "sma" \/ pred_method doc = "ema") /\
           pred_window doc = window req /\ 1 <= pred_window doc <= 90 /\
           input_points doc = clean (series req) /\
           (2 <= List.length (input_points doc))%nat /\
           predicted_value doc = predicted resp /\
           float_ge (predicted_value doc) (float_of_int 0) = true /\
           db' = snd (create_document "prediction" doc db) /\
           saved_id resp = match fst (create_document "prediction" doc db) with
                           | inr i => Some i
                           | inl _ => None
                           end
  end.
Proof.
  destruct (predict_cases req db)
    as [[_ ->] | [(_ & _ & _ & ->) | [(_ & _ & ->) | (Hlen & Hm & pv & ->)]]];
    try reflexivity.
  destruct (save_and_respond_cases create_document (lower (method req))
              (window req) (clean (series req)) pv db) as [[_ ->] | [Hok E]].
  - left. split; reflexivity.
  - cbv zeta in E. rewrite E.
    apply Prediction_errors_nil in Hok. destruct Hok as [Hw Hpv].
    right.
    exists {| pred_method := lower (method req); pred_window := window req;
              input_points := clean (series req); predicted_value := pv |}.
    cbn [pred_method pred_window input_points predicted_value
         resp_method predicted saved_id].
    repeat split; try reflexivity; try assumption; lia.
Qed.

Lemma lower_ascii_idempotent (c : ascii) : lower_ascii (lower_ascii c) = lower_ascii c.
Proof. destruct c as [[] [] [] [] [] [] [] []]; reflexivity. Qed.

Lemma lower_idempotent (s : string) : lower (lower s) = lower s.
Proof.
  induction s as [| c s IH]; [reflexivity |].
  cbn [lower]. rewrite lower_ascii_idempotent, IH. reflexivity.
Qed.

Ltac lower_ascii_cases c :=
  destruct c as [[] [] [] [] [] [] [] []]; cbn;
  (split; [intros H; first [discriminate H | auto] |
           intros [H | H]; first [discriminate H | reflexivity]]).

Lemma lower_ascii_s (c : ascii) :
  lower_ascii c = "s"%char <-> c = "s"%char \/ c = "S"%char.
Proof. lower_ascii_cases c. Qed.

Lemma lower_ascii_m (c : ascii) :
  lower_ascii c = "m"%char <-> c = "m"%char \/ c = "M"%char.
Proof. lower_ascii_cases c. Qed.

Lemma lower_ascii_a (c : ascii) :
  lower_ascii c = "a"%char <-> c = "a"%char \/ c = "A"%char.
Proof. lower_ascii_cases c. Qed.

Lemma lower_ascii_e (c : ascii) :
  lower_ascii c = "e"%char <-> c = "e"%char \/ c = "E"%char.
Proof. lower_ascii_cases c. Qed.

Lemma lower_is_sma (m : string) :
  lower m = "sma" <->
  In m ["sma"; "smA"; "sMa"; "sMA"; "Sma"; "SmA"; "SMa"; "SMA"].
Proof.
  split.
  - destruct m as [| c1 [| c2 [| c3 [| c4 m]]]]; cbn [lower];
      intros H; try discriminate H.
    injection H as H1 H2 H3.
    apply lower_ascii_s in H1. apply lower_ascii_m in H2. apply lower_ascii_a in H3.
    destruct H1 as [-> | ->], H2 as [-> | ->], H3 as [-> | ->]; cbn; auto 10.
  - cbn. intros H. repeat (destruct H as [<- | H]; [reflexivity |]). contradiction.
Qed.

Lemma lower_is_ema (m : string) :
  lower m = "ema" <->
  In m ["ema"; "emA"; "eMa"; "eMA"; "Ema"; "EmA"; "EMa"; "EMA"].
Proof.
  split.
  - destruct m as [| c1 [| c2 [| c3 [| c4 m]]]]; cbn [lower];
      intros H; try discriminate H.
    injection H as H1 H2 H3.
    apply lower_ascii_e in H1. apply lower_ascii_m in H2. apply lower_ascii_a in H3.
    destruct H1 as [-> | ->], H2 as [-> | ->], H3 as [-> | ->]; cbn; auto 10.
  - cbn. intros H. repeat (destruct H as [<- | H]; [reflexivity |]). contradiction.
Qed.

(** The method is read without regard to the case of its ASCII letters,
    and nothing else is forgiven: with two usable points or more, a request
    is refused as an unknown method exactly when its method is none of the
    eight spellings of [sma] and the eight of [ema]; and a request behaves
    as the same request with its method in lowercase. *)
Theorem method_is_case_insensitive req db :
  (2 <= List.length (clean (series req)))%nat ->
  (predict create_document req db = (inl unknown_method, db) <->
   ~ In (method req)
       ["sma"; "smA"; "sMa"; "sMA"; "Sma"; "SmA"; "SMa"; "SMA";
        "ema"; "emA"; "eMa"; "eMA"; "Ema"; "EmA"; "EMa"; "EMA"])
  /\ predict create_document req db =
     predict create_document
       {| series := series req; method := lower (method req);
          window := window req; alpha := alpha req |} db.
Proof.
  intros Hlen. split.
  - change ["sma"; "smA"; "sMa"; "sMA"; "Sma"; "SmA"; "SMa"; "SMA";
            "ema"; "emA"; "eMa"; "eMA"; "Ema"; "EmA"; "EMa"; "EMA"]
      with (["sma"; "smA"; "sMa"; "sMA"; "Sma"; "SmA"; "SMa"; "SMA"] ++
            ["ema"; "emA"; "eMa"; "eMA"; "Ema"; "EmA"; "EMa"; "EMA"])%list.
    rewrite in_app_iff, <- lower_is_sma, <- lower_is_ema.
    split.
    + intros Hrun [Hm | Hm].
      * rewrite (predict_sma create_document req db Hm Hlen) in Hrun.
        match type of Hrun with
        | save_and_respond ?c ?m ?w ?d ?v ?s = _ =>
            destruct (save_and_respond_answer c m w d v s) as [sid E]
        end.
        rewrite Hrun in E. discriminate E.
      * destruct (predict_cases req db)
          as [[Hs _] | [(_ & _ & He & _) | [(_ & _ & E) | (_ & _ & pv & E)]]].
        -- lia.
        -- contradiction.
        -- rewrite E in Hrun. discriminate Hrun.
        -- rewrite E in Hrun.
           destruct (save_and_respond_answer create_document (lower (method req))
                       (window req) (clean (series req)) pv db) as [sid E'].
           rewrite Hrun in E'. discriminate E'.
    + intros Hm. apply predict_unknown_method; tauto.
  - unfold predict. cbn [series method window alpha].
    rewrite lower_idempotent. reflexivity.
Qed.

End PredictFurther.

(** ** Documents: reading after writing *)

Section DictFacts.

Context {V : Type}.

Implicit Types (d : Doc V) (k : string) (v : V).

Lemma dict_get_set_same k v d : dict_get k (dict_set k v d) = Some v.
Proof.
  induction d as [| [k' v'] d IH]; cbn.
  - rewrite String.eqb_refl. reflexivity.
  - destruct (String.eqb_spec k' k) as [-> | Hne]; cbn.
    + rewrite String.eqb_refl. reflexivity.
    + destruct (String.eqb_spec k' k); [contradiction | exact IH].
Qed.

Lemma dict_get_set_other k k' v d :
  k' <> k -> dict_get k' (dict_set k v d) = dict_get k' d.
Proof.
  intros Hne. induction d as [| [k0 v0] d IH]; cbn.
  - destruct (String.eqb_spec k k'); [congruence | reflexivity].
  - destruct (String.eqb_spec k0 k) as [-> | Hk]; cbn.
    + destruct (String.eqb_spec k k'); [congruence | reflexivity].
    + destruct (String.eqb_spec k0 k'); [reflexivity | exact IH].
Qed.

Lemma keys_dict_set_present k v v0 d :
  dict_get k d = Some v0 -> keys (dict_set k v d) = keys d.
Proof.
  unfold keys. induction d as [| [k' v'] d IH]; cbn; [discriminate |].
  destruct (String.eqb_spec k' k) as [-> | Hne]; cbn; intros H.
  - reflexivity.
  - f_equal. apply IH. exact H.
Qed.

Lemma dict_set_unchanged k v d : dict_get k d = Some v -> dict_set k v d = d.
Proof.
  induction d as [| [k' v'] d IH]; cbn; [discriminate |].
  destruct (String.eqb_spec k' k) as [-> | Hne]; intros H.
  - congruence.
  - f_equal. apply IH. exact H.
Qed.

End DictFacts.

(** ** The list endpoints: what they change in a document *)

Section ListEndpoints.

Context {V : Type} {PV : PyValue V} {DB : Type}.

Variable exc_str : PyExc -> string.
Variable get_documents : string -> Doc V -> option Z -> Py DB (list (Doc V)).

Implicit Types (d : Doc V) (k : string) (db : DB) (limit : option Z).

Lemma stringify_id_keys d : keys (stringify_id d) = keys d.
Proof.
  unfold stringify_id. destruct (dict_get "_id" d) eqn:E; [| reflexivity].
  eapply keys_dict_set_present. exact E.
Qed.

Lemma stringify_id_id d :
  dict_get "_id" (stringify_id d) =
  option_map (fun v => str_value (py_str v)) (dict_get "_id" d).
Proof.
  unfold stringify_id. destruct (dict_get "_id" d) eqn:E; cbn.
  - apply dict_get_set_same.
  - exact E.
Qed.

Lemma stringify_id_other k d :
  k <> "_id" -> dict_get k (stringify_id d) = dict_get k d.
Proof.
  intros Hk. unfold stringify_id. destruct (dict_get "_id" d); [| reflexivity].
  apply dict_get_set_other. exact Hk.
Qed.

Lemma isoformat_date_keys d : keys (isoformat_date d) = keys d.
Proof.
  unfold isoformat_date. destruct (dict_get "date" d) as [v |] eqn:E; [| reflexivity].
  destruct (is_date v); [| reflexivity].
  eapply keys_dict_set_present. exact E.
Qed.

Lemma isoformat_date_date d :
  dict_get "date" (isoformat_date d) =
  option_map (fun v => if is_date v then str_value (isoformat v) else v)
    (dict_get "date" d).
Proof.
  unfold isoformat_date. destruct (dict_get "date" d) as [v |] eqn:E; cbn.
  - destruct (is_date v); [apply dict_get_set_same | exact E].
  - exact E.
Qed.

Lemma isoformat_date_other k d :
  k <> "date" -> dict_get k (isoformat_date d) = dict_get k d.
Proof.
  intros Hk. unfold isoformat_date. destruct (dict_get "date" d) as [v |]; [| reflexivity].
  destruct (is_date v); [| reflexivity].
  apply dict_get_set_other. exact Hk.
Qed.

Lemma Forall2_map_r {A B : Type} (R : A -> B -> Prop) (f : A -> B) (l : list A) :
  (forall x, R x (f x)) -> Forall2 R l (map f l).
Proof. intros H. induction l; cbn; constructor; auto. Qed.

Lemma list_sales_run limit db :
  list_sales exc_str get_documents limit db =
  match get_documents "salesrecord" [] limit db with
  | (inl e, db') => (inl (HTTPException 500 (exc_str e)), db')
  | (inr docs, db') =>
      (inr (map (fun d => isoformat_date (stringify_id d)) docs), db')
  end.
Proof.
  unfold list_sales, try_except, bind, ret, raise.
  destruct (get_documents "salesrecord" [] limit db) as [[e | docs] db']; reflexivity.
Qed.

Lemma get_profiles_run limit db :
  get_profiles exc_str get_documents limit db =
  match get_documents "profile" [] limit db with
  | (inl e, db') => (inl (HTTPException 500 (exc_str e)), db')
  | (inr docs, db') => (inr (map (fun d => stringify_id d) docs), db')
  end.
Proof.
  unfold get_profiles, try_except, bind, ret, raise.
  destruct (get_documents "profile" [] limit db) as [[e | docs] db']; reflexivity.
Qed.

(** [list_sales] answers with the documents [get_documents] found in
    [salesrecord], as many and in the same order, each with the same keys
    in the same order; [_id] holds the [str] of what it held, [date] holds
    the ISO form of a date and is otherwise as it was, and every other
    field is untouched.  Whatever [get_documents] raises leaves as an HTTP
    500 carrying its text. *)
Theorem list_sales_rewrites_id_and_date limit db :
  match list_sales exc_str get_documents limit db with
  | (inl e, db') =>
      exists e0,
        get_documents "salesrecord" [] limit db = (inl e0, db') /\
        e = HTTPException 500 (exc_str e0)
  | (inr answer, db') =>
      exists docs,
        get_documents "salesrecord" [] limit db = (inr docs, db') /\
        Forall2
          (fun d d' =>
             keys d' = keys d /\
             dict_get "_id" d' =
               option_map (fun v => str_value (py_str v)) (dict_get "_id" d) /\
             dict_get "date" d' =
               option_map (fun v => if is_date v then str_value (isoformat v) else v)
                 (dict_get "date" d) /\
             forall k, k <> "_id" -> k <> "date" -> dict_get k d' = dict_get k d)
          docs answer
  end.
Proof.
  rewrite list_sales_run.
  destruct (get_documents "salesrecord" [] limit db) as [[e | docs] db'].
  - exists e. split; reflexivity.
  - exists docs. split; [reflexivity |].
    apply Forall2_map_r. intros d. repeat split.
    + rewrite isoformat_date_keys. apply stringify_id_keys.
    + rewrite isoformat_date_other by discriminate. apply stringify_id_id.
    + rewrite isoformat_date_date, stringify_id_other by discriminate. reflexivity.
    + intros k Hid Hdate.
      rewrite isoformat_date_other, stringify_id_other by assumption. reflexivity.
Qed.

(** [get_profiles] answers with the documents found in [profile], as many
    and in the same order, each with the same keys; [_id] holds the [str]
    of what it held and every other field, a date included, is untouched.
    Whatever [get_documents] raises leaves as an HTTP 500 carrying its
    text. *)
Theorem get_profiles_rewrites_id_only limit db :
  match get_profiles exc_str get_documents limit db with
  | (inl e, db') =>
      exists e0,
        get_documents "profile" [] limit db = (inl e0, db') /\
        e = HTTPException 500 (exc_str e0)
  | (inr answer, db') =>
      exists docs,
        get_documents "profile" [] limit db = (inr docs, db') /\
        Forall2
          (fun d d' =>
             keys d' = keys d /\
             dict_get "_id" d' =
               option_map (fun v => str_value (py_str v)) (dict_get "_id" d) /\
             forall k, k <> "_id" -> dict_get k d' = dict_get k d)
          docs answer
  end.
Proof.
  rewrite get_profiles_run.
  destruct (get_documents "profile" [] limit db) as [[e | docs] db'].
  - exists e. split; reflexivity.
  - exists docs. split; [reflexivity |].
    apply Forall2_map_r. intros d. repeat split.
    + apply stringify_id_keys.
    + apply stringify_id_id.
    + intros k Hid. apply stringify_id_other. exact Hid.
Qed.

Context {PL : @PyValueLaws V PV}.

Lemma stringify_id_idempotent d : stringify_id (stringify_id d) = stringify_id d.
Proof.
  unfold stringify_id at 1. rewrite stringify_id_id.
  destruct (dict_get "_id" d) as [v |] eqn:E; cbn; [| reflexivity].
  rewrite py_str_str_value. apply dict_set_unchanged.
  rewrite stringify_id_id, E. reflexivity.
Qed.

Lemma isoformat_date_idempotent d : isoformat_date (isoformat_date d) = isoformat_date d.
Proof.
  unfold isoformat_date at 1. rewrite isoformat_date_date.
  destruct (dict_get "date" d) as [v |] eqn:E; cbn; [| reflexivity].
  destruct (is_date v) eqn:Hv.
  - rewrite is_date_str_value. reflexivity.
  - rewrite Hv. reflexivity.
Qed.

Lemma stringify_id_after_isoformat_date d :
  stringify_id (isoformat_date (stringify_id d)) = isoformat_date (stringify_id d).
Proof.
  unfold stringify_id at 1.
  rewrite isoformat_date_other by discriminate. rewrite stringify_id_id.
  destruct (dict_get "_id" d) as [v |] eqn:E; cbn; [| reflexivity].
  rewrite py_str_str_value. apply dict_set_unchanged.
  rewrite isoformat_date_other by discriminate.
  rewrite stringify_id_id, E. reflexivity.
Qed.

(** What [list_sales] answers is ready to be encoded: in every document
    [_id], when present, is a [str], and neither [_id] nor [date] holds a
    date object. *)
Theorem list_sales_leaves_no_date limit db answer db' :
  list_sales exc_str get_documents limit db = (inr answer, db') ->
  Forall
    (fun d' =>
       (forall v, dict_get "_id" d' = Some v ->
                  (exists s, v = str_value s) /\ is_date v = false) /\
       (forall v, dict_get "date" d' = Some v -> is_date v = false))
    answer.
Proof.
  rewrite list_sales_run.
  destruct (get_documents "salesrecord" [] limit db) as [[e | docs] db0];
    intros H; inversion H; subst; clear H.
  apply Forall_forall. intros d' Hin.
  apply in_map_iff in Hin. destruct Hin as (d & <- & _).
  split.
  - intros v. rewrite isoformat_date_other by discriminate.
    rewrite stringify_id_id.
    destruct (dict_get "_id" d) as [v0 |]; cbn; intros E; inversion E; subst.
    split; [eexists; reflexivity | apply is_date_str_value].
  - intros v. rewrite isoformat_date_date.
    destruct (dict_get "date" (stringify_id d)) as [v0 |]; cbn;
      intros E; inversion E; subst.
    destruct (is_date v0) eqn:Hv; [apply is_date_str_value | exact Hv].
Qed.

(** Rewriting twice changes nothing more: when [get_documents] returns
    documents that [list_sales] has already answered with, [list_sales]
    answers with them as they are. *)
Theorem list_sales_rewriting_is_idempotent limit db answer db'
    (again : string -> Doc V -> option Z -> Py DB (list (Doc V))) limit2 db2 db2' :
  list_sales exc_str get_documents limit db = (inr answer, db') ->
  again "salesrecord" [] limit2 db2 = (inr answer, db2') ->
  list_sales exc_str again limit2 db2 = (inr answer, db2').
Proof.
  rewrite list_sales_run.
  destruct (get_documents "salesrecord" [] limit db) as [[e | docs] db0];
    intros H; inversion H; subst; clear H.
  intros Hagain. unfold list_sales, try_except, bind, ret. rewrite Hagain.
  f_equal. f_equal. rewrite map_map.
  apply map_ext. intros d.
  rewrite stringify_id_after_isoformat_date. apply isoformat_date_idempotent.
Qed.

End ListEndpoints.

(** ** The create endpoints *)

Section CreateEndpoints.

Context {F : Type} {DB Id : Type}.

Variable exc_str : PyExc -> string.

(** [add_sales] and [create_profile] hand the record as it is to
    [create_document], once, on [salesrecord] and [profile]; they answer
    with the identifier it returns, and whatever it raises, an HTTP error
    of another status included, leaves as an HTTP 500 carrying its text.
    The store is left as [create_document] left it. *)
Theorem create_endpoints_surface_storage_errors
    (create_sale : string -> @SalesRecord F -> Py DB Id)
    (create_prof : string -> Profile -> Py DB Id)
    (record : @SalesRecord F) (profile : Profile) (db : DB) :
  match add_sales exc_str create_sale record db with
  | (inr answer, db') =>
      create_sale "salesrecord" record db = (inr (inserted_id answer), db')
  | (inl e, db') =>
      exists e0, create_sale "salesrecord" record db = (inl e0, db') /\
                 e = HTTPException 500 (exc_str e0)
  end
  /\
  match create_profile exc_str create_prof profile db with
  | (inr answer, db') =>
      create_prof "profile" profile db = (inr (inserted_id answer), db')
  | (inl e, db') =>
      exists e0, create_prof "profile" profile db = (inl e0, db') /\
                 e = HTTPException 500 (exc_str e0)
  end.
Proof.
  unfold add_sales, create_profile, try_except, bind, ret, raise. split.
  - destruct (create_sale "salesrecord" record db) as [[e | i] db'];
      [exists e; split |]; reflexivity.
  - destruct (create_prof "profile" profile db) as [[e | i] db'];
      [exists e; split |]; reflexivity.
Qed.

End CreateEndpoints.

(** ** The database check *)

Section DatabaseCheckFacts.

Lemma str_take_prefix (n : nat) (s : string) :
  exists rest, s = str_take n s ++ rest.
Proof.
  revert n. induction s as [| c s IH]; intros n; [exists ""; reflexivity |].
  cbn [str_take]. destruct (is_continuation c).
  - destruct (IH n) as [rest E]. exists rest. cbn. f_equal. exact E.
  - destruct n as [| n].
    + exists (String c s). reflexivity.
    + destruct (IH n) as [rest E]. exists rest. cbn. f_equal. exact E.
Qed.

Lemma str_take_len (n : nat) (s : string) :
  str_len (str_take n s) = Nat.min n (str_len s).
Proof.
  revert n. induction s as [| c s IH]; intros n; [cbn; lia |].
  cbn [str_take str_len]. destruct (is_continuation c) eqn:Hc.
  - cbn [str_len]. rewrite Hc. apply IH.
  - destruct n as [| n]; [reflexivity |].
    cbn [str_len]. rewrite Hc, IH. reflexivity.
Qed.

Lemma str_take_all (n : nat) (s : string) :
  (str_len s <= n)%nat -> str_take n s = s.
Proof.
  revert n. induction s as [| c s IH]; intros n H; [reflexivity |].
  cbn [str_take str_len] in *. destruct (is_continuation c).
  - f_equal. apply IH. exact H.
  - destruct n as [| n]; [lia |]. f_equal. apply IH. lia.
Qed.

Context {DB Handle : Type}.

Variable exc_str : PyExc -> string.
Variable getenv : string -> option string.
Variable name_of : Handle -> option string.
Variable list_collection_names : Handle -> Py DB (list string).

(** [test_database] never raises: it always answers with a report whose
    [backend] says running.  Without a database handle the report is the
    initial one with the not-initialized text, and the store is not
    touched.  With a handle the status is [Connected]; if the listing
    succeeds, [collections] holds its first 10 names and the database is
    reported working; if the listing raises, [collections] stays empty and
    the text of the exception is quoted cut to its first 80 characters.
    In every case at most 10 collections are named. *)
Theorem test_database_always_reports (db : option Handle) (store : DB) :
  exists report store',
    test_database exc_str getenv name_of list_collection_names db store =
      (inr report, store') /\
    backend report = "✅ Running" /\
    (List.length (collections report) <= 10)%nat /\
    match db with
    | None =>
        store' = store /\
        report = {| backend := "✅ Running";
                    database := "⚠️ Available but not initialized";
                    database_url := None; database_name := None;
                    connection_status := "Not Connected"; collections := [] |}
    | Some h =>
        connection_status report = "Connected" /\
        database_url report =
          Some (if truthy (getenv "DATABASE_URL") then "✅ Set" else "❌ Not Set") /\
        database_name report =
          Some (match name_of h with Some n => n | None => "❌ Unknown" end) /\
        match list_collection_names h store with
        | (inr names, after) =>
            store' = after /\
            collections report = firstn 10 names /\
            database report = "✅ Connected & Working"
        | (inl e, after) =>
            store' = after /\
            collections report = [] /\
            exists quoted rest,
              database report = "⚠️ Connected but Error: " ++ quoted /\
              exc_str e = quoted ++ rest /\
              str_len quoted = Nat.min 80 (str_len (exc_str e))
        end
    end.
Proof.
  unfold test_database, try_except, bind, assign, on_store.
  destruct db as [h |]; cbn [fst snd].
  - destruct (list_collection_names h store) as [[e | names] after] eqn:E;
      cbn [fst snd].
    + do 2 eexists. split; [reflexivity |]. cbn.
      repeat split; try lia.
      destruct (str_take_prefix 80 (exc_str e)) as [rest Hrest].
      exists (str_take 80 (exc_str e)), rest.
      repeat split; [exact Hrest | apply str_take_len].
    + do 2 eexists. split; [reflexivity |]. cbn [backend collections
        connection_status database_url database_name database
        set_database set_collections set_connection_status
        set_database_name set_database_url].
      repeat split. rewrite length_firstn. lia.
  - do 2 eexists. split; [reflexivity |]. cbn. repeat split; lia.
Qed.

End DatabaseCheckFacts.

(** ** The forecast does not depend on the store *)

(** The number a request is answered with, or the exception it ends in,
    is the same whatever the store holds and whatever the persistence
    collaborator does: the computation has no hidden state. *)
Theorem forecast_ignores_store {F : Type} {PF : PyFloat F}
    {DB1 Id1 DB2 Id2 : Type}
    (cd1 : string -> @Prediction F -> Py DB1 Id1)
    (cd2 : string -> @Prediction F -> Py DB2 Id2)
    (req : @PredictRequest F) (db1 : DB1) (db2 : DB2) :
  forecast cd1 req db1 = forecast cd2 req db2.
Proof.
  destruct (predict_shape req) as [(e & _ & Hrun) | (pv & Hrun)].
  - unfold forecast. rewrite !Hrun. reflexivity.
  - rewrite (forecast_save_and_respond cd1 req db1 _ _ _ _ (Hrun _ _ cd1 db1)).
    rewrite (forecast_save_and_respond cd2 req db2 _ _ _ _ (Hrun _ _ cd2 db2)).
    reflexivity.
Qed.

(** ** The further theorems at concrete inputs *)

#[export] Instance mongo_value_laws : @PyValueLaws MongoValue mongo_value.
Proof. split; reflexivity. Qed.

Section FurtherInstances.

Example list_sales_on_a_sample :
  list_sales sample_exc_str (fixed_documents [sample_sale; sample_profile]) (Some 1) tt =
  (inr [[("_id", MStr "65f1c0ffee0123456789abcd");
         ("date", MStr "2024-03-09");
         ("revenue", MInt 125000);
         ("note", MNull)]], tt).
Proof. reflexivity. Qed.

Example list_sales_when_the_store_is_down :
  list_sales sample_exc_str unavailable_documents (Some 100) tt =
  (inl (HTTPException 500 "Database not available"), tt).
Proof. reflexivity. Qed.

Example test_database_when_listing_fails :
  test_database sample_exc_str (fun _ => Some "mongodb://localhost") (fun _ : unit => Some "umkm")
    (fun _ => raise (OtherException "ñandú is down")) (Some tt) tt =
  (inr {| backend := "✅ Running";
          database := "⚠️ Connected but Error: ñandú is down";
          database_url := Some "✅ Set";
          database_name := Some "umkm";
          connection_status := "Connected";
          collections := [] |}, tt).
Proof. reflexivity. Qed.

Example str_take_counts_characters :
  str_take 3 "ñandú" = "ñan" /\ str_len "ñandú" = 5%nat /\ String.length "ñandú" = 7%nat.
Proof. repeat split. Qed.

Lemma method_is_case_insensitive_witness :
  (predict recording_create sample_sma_window100 [] = (inl unknown_method, []) <->
   ~ In "SMA"
       ["sma"; "smA"; "sMa"; "sMA"; "Sma"; "SmA"; "SMa"; "SMA";
        "ema"; "emA"; "eMa"; "eMA"; "Ema"; "EmA"; "EMa"; "EMA"])
  /\ predict recording_create sample_sma_window100 [] =
     predict recording_create
       (request [Some 10; Some 20; Some 30]%float "sma" 100 None) [].
Proof.
  exact (method_is_case_insensitive recording_create sample_sma_window100 []
           (le_S 2 2 (le_n 2))).
Defined.

Lemma list_sales_leaves_no_date_witness :
  Forall
    (fun d' =>
       (forall v, dict_get "_id" d' = Some v ->
                  (exists s, v = str_value s) /\ is_date v = false) /\
       (forall v, dict_get "date" d' = Some v -> is_date v = false))
    [isoformat_date (stringify_id sample_sale)].
Proof.
  exact (list_sales_leaves_no_date sample_exc_str (fixed_documents [sample_sale])
           (Some 100) tt eq_refl).
Defined.

Lemma list_sales_rewriting_is_idempotent_witness :
  list_sales sample_exc_str
    (fixed_documents [isoformat_date (stringify_id sample_sale)]) None tt =
  (inr [isoformat_date (stringify_id sample_sale)], tt).
Proof.
  exact (list_sales_rewriting_is_idempotent sample_exc_str
           (fixed_documents [sample_sale]) (Some 100) tt
           (fixed_documents [isoformat_date (stringify_id sample_sale)]) None tt
           eq_refl eq_refl).
Defined.

End FurtherInstances.
